(** * gtfspy.routing.forwardjourney: the ForwardJourney class

    A shallow embedding of [src/gtfspy/routing/forwardjourney.py] and the
    properties of its journey aggregation, metric accessors and dominance
    test.

    Python values are modelled as follows.
    - A trip identifier is a Python value that may be [None], an integer or
      a string ([pyval]); truthiness and [!=] follow Python.
    - Timestamps and stop identifiers are Python integers ([Z]).
    - The fields [departure_time] and [arrival_time] of a journey are [None]
      until the first leg is appended ([option Z]).
    - A method that mutates [self] is a computation in a state-and-exception
      monad over the journey object; a raised exception keeps the state
      reached so far, as a Python exception does.
    - Arithmetic and ordering on [None] raise [TypeError] (Python 3). *)

From Stdlib Require Import ZArith List Bool Lia.
From stdpp Require Import base decidable countable gmap sets list strings.

Local Open Scope Z_scope.

(** ** Python values *)

Inductive pyval : Type :=
  | PyNone
  | PyInt (n : Z)
  | PyStr (s : string).

#[global] Instance pyval_eq_dec : EqDecision pyval.
Proof. solve_decision. Defined.

Definition pyval_to_sum (v : pyval) : option (Z + string) :=
  match v with
  | PyNone => None
  | PyInt n => Some (inl n)
  | PyStr s => Some (inr s)
  end.

Definition pyval_of_sum (o : option (Z + string)) : pyval :=
  match o with
  | None => PyNone
  | Some (inl n) => PyInt n
  | Some (inr s) => PyStr s
  end.

#[global] Instance pyval_countable : Countable pyval.
Proof.
  apply (inj_countable' pyval_to_sum pyval_of_sum).
  intros v; destruct v; reflexivity.
Defined.

(** [bool(v)]: [None], [0] and the empty string are falsy. *)
Definition py_truthy (v : pyval) : bool :=
  match v with
  | PyNone => false
  | PyInt n => negb (n =? 0)
  | PyStr EmptyString => false
  | PyStr (String _ _) => true
  end.

(** [v is not None] *)
Definition py_is_not_None (v : pyval) : bool :=
  match v with
  | PyNone => false
  | _ => true
  end.

(** [a != b] *)
Definition py_ne (a b : pyval) : bool := negb (bool_decide (a = b)).

(** Truthiness of a variable that holds [None] or an integer. *)
Definition py_truthy_int (o : option Z) : bool :=
  match o with
  | None => false
  | Some n => negb (n =? 0)
  end.

(** ** Exceptions and results *)

Inductive exn : Type :=
  | AssertionError
  | TypeError
  | IndexError.

Inductive res (A : Type) : Type :=
  | Ok (a : A)
  | Raise (e : exn).
Arguments Ok {A} a.
Arguments Raise {A} e.

Definition is_error {A : Type} (r : res A) : Prop :=
  match r with
  | Ok _ => False
  | Raise _ => True
  end.

(** [a - b] on values that are [None] or integers. *)
Definition py_sub (a b : option Z) : res Z :=
  match a, b with
  | Some x, Some y => Ok (x - y)
  | _, _ => Raise TypeError
  end.

(** [a >= b] and [a <= b] on values that are [None] or integers. *)
Definition py_ge (a b : option Z) : res bool :=
  match a, b with
  | Some x, Some y => Ok (y <=? x)
  | _, _ => Raise TypeError
  end.

Definition py_le (a b : option Z) : res bool :=
  match a, b with
  | Some x, Some y => Ok (x <=? y)
  | _, _ => Raise TypeError
  end.

(** [sum(l)] on a list of integers. *)
Definition py_sum (l : list Z) : Z := fold_left Z.add l 0.

(** ** Connection

    Modelled from the spec: the class [gtfspy.routing.connection.Connection]
    is imported by the module and is not part of the sources at hand; its
    attributes and [duration()] follow section 3 of the specification
    (Leg). *)

Module Connection.

Record t : Type := mk
  { departure_stop : Z;
    arrival_stop : Z;
    departure_time : Z;
    arrival_time : Z;
    trip_id : pyval;
    is_walk : bool;
    waiting_time : Z }.

(** Modelled from the spec: [duration()] is [arrival_time - departure_time]. *)
Definition duration (leg : t) : Z :=
  arrival_time leg - departure_time leg.

End Connection.

(** An argument handed to [add_leg]: a [Connection] instance or some other
    Python value. *)
Inductive pyobj : Type :=
  | PyConnection (c : Connection.t)
  | PyOther (v : pyval).

Definition isinstance_Connection (o : pyobj) : bool :=
  match o with
  | PyConnection _ => true
  | PyOther _ => false
  end.

(** ** The journey object *)

Module ForwardJourney.

Record t : Type := mk
  { legs : list Connection.t;
    departure_time : option Z;
    arrival_time : option Z;
    trip_ids : gset pyval;
    n_boardings : Z }.

(** *** State-and-exception monad over [self] *)

Definition M (A : Type) : Type := t -> res A * t.

Definition ret {A : Type} (a : A) : M A := fun self => (Ok a, self).

Definition bind {A B : Type} (m : M A) (k : A -> M B) : M B :=
  fun self =>
    match m self with
    | (Ok a, self') => k a self'
    | (Raise e, self') => (Raise e, self')
    end.

Definition raise {A : Type} (e : exn) : M A := fun self => (Raise e, self).

Definition get : M t := fun self => (Ok self, self).

Definition modify (f : t -> t) : M unit :=
  fun self => (Ok tt, f self).

Notation "'do' x <- m ; k" := (bind m (fun x => k))
  (at level 10, x name, m at level 100, k at level 200).
Notation "m ;; k" := (bind m (fun _ => k))
  (at level 100, k at level 200, right associativity).

Definition when (b : bool) (m : M unit) : M unit :=
  if b then m else ret tt.

(** [for x in xs: body x] *)
Fixpoint for_each {A : Type} (xs : list A) (body : A -> M unit) : M unit :=
  match xs with
  | [] => ret tt
  | x :: xs' => body x ;; for_each xs' body
  end.

(** *** Field assignments *)

Definition set_departure_time (t : option Z) : M unit :=
  modify (fun self =>
    mk (legs self) t (arrival_time self)
                     (trip_ids self) (n_boardings self)).

Definition set_arrival_time (t : option Z) : M unit :=
  modify (fun self =>
    mk (legs self) (departure_time self) t
                     (trip_ids self) (n_boardings self)).

Definition incr_n_boardings : M unit :=
  modify (fun self =>
    mk (legs self) (departure_time self) (arrival_time self)
                     (trip_ids self) (n_boardings self + 1)).

Definition legs_append (leg : Connection.t) : M unit :=
  modify (fun self =>
    mk (legs self ++ [leg]) (departure_time self)
                     (arrival_time self) (trip_ids self) (n_boardings self)).

(** [assert isinstance(leg, Connection)] *)
Definition assert_Connection (o : pyobj) : M Connection.t :=
  match o with
  | PyConnection c => ret c
  | PyOther _ => raise AssertionError
  end.

(** [not self.legs] *)
Definition not_legs (self : t) : bool :=
  match legs self with
  | [] => true
  | _ :: _ => false
  end.

(** [leg.trip_id and (not self.legs or leg.trip_id != self.legs[-1].trip_id)];
    [self.legs[-1]] is only evaluated when [self.legs] is not empty. *)
Definition boards (self : t) (leg : Connection.t) : bool :=
  py_truthy (Connection.trip_id leg) &&
  (not_legs self ||
   match last (legs self) with
   | Some prev => py_ne (Connection.trip_id leg) (Connection.trip_id prev)
   | None => false
   end).

(** *** [add_leg] *)

Definition add_leg (o : pyobj) : M unit :=
  do leg <- assert_Connection o ;
  do self <- get ;
  when (not_legs self) (set_departure_time (Some (Connection.departure_time leg))) ;;
  set_arrival_time (Some (Connection.arrival_time leg)) ;;
  do self <- get ;
  when (boards self leg) incr_n_boardings ;;
  set_arrival_time (Some (Connection.arrival_time leg)) ;;
  legs_append leg.

(** *** [__init__] *)

Definition fresh : t :=
  mk [] None None ∅ 0.

Definition init (legs0 : option (list pyobj)) : res unit * t :=
  match legs0 with
  | None => (Ok tt, fresh)
  | Some ls => for_each ls add_leg fresh
  end.

(** The journey [ForwardJourney(legs)] for a list of connections. *)
Definition build (ls : list Connection.t) : t :=
  snd (init (Some (map PyConnection ls))).

(** *** Read accessors

    The accessors do not assign to [self]; each is a function of the journey
    that returns the outcome of the call. *)

Definition get_legs (self : t) : res (list Connection.t) := Ok (legs self).

Definition get_travel_time (self : t) : res Z :=
  py_sub (arrival_time self) (departure_time self).

Definition get_transfers (self : t) : res Z :=
  Ok (Z.max (n_boardings self - 1) 0).

(** [self.legs[-1]] *)
Definition legs_last (self : t) : res Connection.t :=
  match last (legs self) with
  | Some leg => Ok leg
  | None => Raise IndexError
  end.

Definition get_all_stops (self : t) : res (list Z) :=
  let all_stops :=
    fold_left (fun acc leg => acc ++ [Connection.departure_stop leg])
              (legs self) [] in
  match legs_last self with
  | Ok leg => Ok (all_stops ++ [Connection.arrival_stop leg])
  | Raise e => Raise e
  end.

(** Local variables of the loop of [get_transfer_stop_pairs]. *)
Record tsp_state : Type := mk_tsp
  { transfer_stop_pairs : list (Z * Z);
    previous_arrival_stop : option Z;
    current_trip_id : pyval }.

Definition tsp_step (st : tsp_state) (leg : Connection.t) : tsp_state :=
  let pairs :=
    match previous_arrival_stop st with
    | Some prev =>
        if py_is_not_None (Connection.trip_id leg)
           && py_ne (Connection.trip_id leg) (current_trip_id st)
        then transfer_stop_pairs st ++ [(prev, Connection.departure_stop leg)]
        else transfer_stop_pairs st
    | None => transfer_stop_pairs st
    end in
  mk_tsp pairs (Some (Connection.arrival_stop leg)) (Connection.trip_id leg).

Definition get_transfer_stop_pairs (self : t) : res (list (Z * Z)) :=
  Ok (transfer_stop_pairs
        (fold_left tsp_step (legs self) (mk_tsp [] None PyNone))).

(** Local variables of the loop of [get_waiting_times]. *)
Record wt_state : Type := mk_wt
  { waiting_times : list Z;
    previous_arrival : option Z }.

(** One iteration: [if previous_arrival:] holds when [previous_arrival] is an
    integer other than 0; [None] and 0 are both falsy. *)
Definition wt_step (st : wt_state) (leg : Connection.t) : wt_state :=
  let current_departure := Connection.departure_time leg in
  let times :=
    match previous_arrival st with
    | Some prev =>
        if py_truthy_int (Some prev)
        then waiting_times st ++ [current_departure - prev]
        else waiting_times st
    | None => waiting_times st
    end in
  mk_wt times (Some (Connection.arrival_time leg)).

Definition get_waiting_times (self : t) : res (list Z) :=
  Ok (waiting_times (fold_left wt_step (legs self) (mk_wt [] None))).

Definition get_total_waiting_time (self : t) : res Z :=
  match get_waiting_times self with
  | Ok waiting_times => Ok (py_sum waiting_times)
  | Raise e => Raise e
  end.

(** The loop asserts [isinstance(leg, Connection)] for every leg; the
    elements of [legs] are connections, so the assertion holds. *)
Definition get_invehicle_times (self : t) : res (list Z) :=
  Ok (fold_left
        (fun invehicle_times leg =>
           if py_is_not_None (Connection.trip_id leg)
           then invehicle_times ++ [Connection.duration leg]
           else invehicle_times)
        (legs self) []).

Definition get_total_invehicle_time (self : t) : res Z :=
  match get_invehicle_times self with
  | Ok l => Ok (py_sum l)
  | Raise e => Raise e
  end.

Definition get_walking_times (self : t) : res (list Z) :=
  Ok (fold_left
        (fun walking_times leg =>
           if Connection.is_walk leg
           then walking_times
                  ++ [Connection.duration leg - Connection.waiting_time leg]
           else walking_times)
        (legs self) []).

Definition get_total_walking_time (self : t) : res Z :=
  match get_walking_times self with
  | Ok l => Ok (py_sum l)
  | Raise e => Raise e
  end.

(** *** [dominates] *)

(** [self.departure_time >= other.departure_time and
     self.arrival_time <= other.arrival_time]; the second comparison is
    evaluated only when the first one is true. *)
Definition dominates_time (self other : t) : res bool :=
  match py_ge (departure_time self) (departure_time other) with
  | Ok true => py_le (arrival_time self) (arrival_time other)
  | Ok false => Ok false
  | Raise e => Raise e
  end.

Definition dominates_boardings (self other : t) : bool :=
  n_boardings self <=? n_boardings other.

Definition dominates (self other : t)
    (consider_time consider_boardings : bool) : res bool :=
  match (if consider_time then dominates_time self other else Ok true) with
  | Raise e => Raise e
  | Ok false => Ok false
  | Ok true =>
      if consider_boardings
      then (if dominates_boardings self other then Ok true else Ok false)
      else Ok true
  end.

End ForwardJourney.

(** ** The journey animator: timing of the plotted connections

    From [src/gtfspy/routing/journey_animator.py]: the time arithmetic of
    [JourneyAnimator.__plot_paths] and [JourneyAnimator.animation].  Times
    are integers, as [snapshot] documents for [time_ut]; coordinates are
    kept abstract, the time arithmetic never inspects them.  Drawing on the
    axes is not modelled. *)

Module JourneyAnimator.

Section PlotConnections.

Variable coord : Type.

(** [PlotConnection = namedtuple('PlotConnection', 'route_type from_lat
    from_lon to_lat to_lon departure_time arrival_time')] *)
Record PlotConnection : Type := mkPlotConnection
  { route_type : Z;
    from_lat : coord;
    from_lon : coord;
    to_lat : coord;
    to_lon : coord;
    departure_time : Z;
    arrival_time : Z }.

(** [tail_time = time_ut - self.tail_seconds] *)
Definition tail_time (tail_seconds time_ut : Z) : Z := time_ut - tail_seconds.

(** [tail_time > c.arrival_time or time_ut < c.departure_time]: the
    connection is not active and the loop continues without plotting it. *)
Definition omitted (tail_seconds time_ut : Z) (c : PlotConnection) : bool :=
  (arrival_time c <? tail_time tail_seconds time_ut)
  || (time_ut <? departure_time c).

(** [overlap_start = max(c.departure_time, min(c.arrival_time, tail_time))] *)
Definition overlap_start (tail_seconds time_ut : Z) (c : PlotConnection) : Z :=
  Z.max (departure_time c)
        (Z.min (arrival_time c) (tail_time tail_seconds time_ut)).

(** [overlap_end = max(c.departure_time, min(c.arrival_time, time_ut))] *)
Definition overlap_end (time_ut : Z) (c : PlotConnection) : Z :=
  Z.max (departure_time c) (Z.min (arrival_time c) time_ut).

(** [c_duration = c.arrival_time - c.departure_time] *)
Definition c_duration (c : PlotConnection) : Z :=
  arrival_time c - departure_time c.

(** [min(...)] and [max(...)] of a sequence of integers; [None] stands for
    the [ValueError] that Python raises on an empty sequence. *)
Definition py_min (l : list Z) : option Z :=
  match l with
  | [] => None
  | x :: l' => Some (fold_left Z.min l' x)
  end.

Definition py_max (l : list Z) : option Z :=
  match l with
  | [] => None
  | x :: l' => Some (fold_left Z.max l' x)
  end.

(** [start_time_ut = min(c.departure_time for journey_path in
    self.plot_journeys for c in journey_path) - self.tail_seconds - 1] *)
Definition start_time_ut (tail_seconds : Z)
    (plot_journeys : list (list PlotConnection)) : option Z :=
  match py_min (map departure_time (concat plot_journeys)) with
  | Some m => Some (m - tail_seconds - 1)
  | None => None
  end.

(** [end_time_ut = max(c.arrival_time for path in self.plot_journeys
    for c in path) + self.tail_seconds + 1] *)
Definition end_time_ut (tail_seconds : Z)
    (plot_journeys : list (list PlotConnection)) : option Z :=
  match py_max (map arrival_time (concat plot_journeys)) with
  | Some m => Some (m + tail_seconds + 1)
  | None => None
  end.

End PlotConnections.

Arguments route_type {coord} _.
Arguments departure_time {coord} _.
Arguments arrival_time {coord} _.
Arguments omitted {coord} _ _ _.
Arguments overlap_start {coord} _ _ _.
Arguments overlap_end {coord} _ _.
Arguments c_duration {coord} _.
Arguments start_time_ut {coord} _ _.
Arguments end_time_ut {coord} _ _.

End JourneyAnimator.

Import ForwardJourney.

(** * Definitions used in the statements *)

(** The journey after the call [self.add_leg(o)]. *)
Definition after_add_leg (self : t) (o : pyobj) : t := snd (add_leg o self).

(** The state reached by [add_leg] on a connection, field by field. *)
Definition appended (self : t) (leg : Connection.t) : t :=
  mk (legs self ++ [leg])
     (if not_legs self then Some (Connection.departure_time leg)
      else departure_time self)
     (Some (Connection.arrival_time leg))
     (trip_ids self)
     (if boards self leg then n_boardings self + 1 else n_boardings self).

(** ** Example journeys *)

Module Examples.

(** The three-leg scenario of the specification: two rides on trip T1 and
    one on trip T2. *)
Definition leg_A : Connection.t :=
  Connection.mk 1 2 0 600 (PyStr "T1") false 0.
Definition leg_B : Connection.t :=
  Connection.mk 2 3 600 1200 (PyStr "T1") false 0.
Definition leg_C : Connection.t :=
  Connection.mk 3 4 1260 1800 (PyStr "T2") false 0.

(** A ride whose trip identifier is the integer 0. *)
Definition leg_trip0 : Connection.t :=
  Connection.mk 1 2 0 600 (PyInt 0) false 0.

(** A walk between stops 2 and 3. *)
Definition leg_walk : Connection.t :=
  Connection.mk 2 3 600 900 PyNone true 0.

(** A second ride on trip T1, after the walk. *)
Definition leg_A' : Connection.t :=
  Connection.mk 3 4 900 1500 (PyStr "T1") false 0.

(** A leg that arrives at time 0, and a leg that follows it. *)
Definition leg_at0 : Connection.t :=
  Connection.mk 1 2 0 0 PyNone true 0.
Definition leg_after0 : Connection.t :=
  Connection.mk 2 3 10 20 (PyStr "T1") false 0.

End Examples.

(** Two plotted connections, for the animator. *)
Module AnimatorExamples.

Definition conn1 : JourneyAnimator.PlotConnection unit :=
  JourneyAnimator.mkPlotConnection unit 3 tt tt tt tt 0 600.

Definition conn2 : JourneyAnimator.PlotConnection unit :=
  JourneyAnimator.mkPlotConnection unit 3 tt tt tt tt 660 1200.

End AnimatorExamples.

(** ** Consecutive legs *)

(** The pairs (previous leg, leg) of a list of legs, in order. *)
Fixpoint consecutive {A : Type} (l : list A) : list (A * A) :=
  match l with
  | x :: ((y :: _) as l') => (x, y) :: consecutive l'
  | _ => []
  end.

(** ** Transfer stop pairs *)

(** A leg starts a transfer when its trip identifier is not [None] and is
    not the trip identifier of the leg just before it. *)
Definition changes_trip (p : Connection.t * Connection.t) : bool :=
  py_is_not_None (Connection.trip_id (snd p))
  && py_ne (Connection.trip_id (snd p)) (Connection.trip_id (fst p)).

Definition stop_pair (p : Connection.t * Connection.t) : Z * Z :=
  (Connection.arrival_stop (fst p), Connection.departure_stop (snd p)).

(** The pairs as the specification words them: the trip identifier of a leg
    is compared with that of the most recently seen leg whose trip
    identifier is not [None]. *)
Definition tsp_step_latest_trip (st : tsp_state) (leg : Connection.t)
    : tsp_state :=
  let pairs :=
    match previous_arrival_stop st with
    | Some prev =>
        if py_is_not_None (Connection.trip_id leg)
           && py_ne (Connection.trip_id leg) (current_trip_id st)
        then transfer_stop_pairs st ++ [(prev, Connection.departure_stop leg)]
        else transfer_stop_pairs st
    | None => transfer_stop_pairs st
    end in
  mk_tsp pairs (Some (Connection.arrival_stop leg))
         (if py_is_not_None (Connection.trip_id leg)
          then Connection.trip_id leg else current_trip_id st).

Definition transfer_stop_pairs_latest_trip (ls : list Connection.t)
    : list (Z * Z) :=
  transfer_stop_pairs
    (fold_left tsp_step_latest_trip ls (mk_tsp [] None PyNone)).

(** ** Waiting times *)

Definition gap (p : Connection.t * Connection.t) : Z :=
  Connection.departure_time (snd p) - Connection.arrival_time (fst p).

(** The test [if previous_arrival:] of the loop, for the leg just before. *)
Definition arrived_nonzero (p : Connection.t * Connection.t) : bool :=
  py_truthy_int (Some (Connection.arrival_time (fst p))).

(** ** Accessors on a journey without legs *)

Definition all_accessors_fail (self : t) : Prop :=
  is_error (get_travel_time self) /\
  is_error (get_transfers self) /\
  is_error (get_all_stops self) /\
  is_error (get_transfer_stop_pairs self) /\
  is_error (get_waiting_times self) /\
  is_error (get_total_waiting_time self) /\
  is_error (get_invehicle_times self) /\
  is_error (get_total_invehicle_time self) /\
  is_error (get_walking_times self) /\
  is_error (get_total_walking_time self).

(** ** Further definitions for the statements *)

(** The connections at the head of a list of arguments, up to the first
    argument that is not a [Connection]. *)
Fixpoint leading_connections (objs : list pyobj) : list Connection.t :=
  match objs with
  | PyConnection c :: objs' => c :: leading_connections objs'
  | _ => []
  end.

(** The trip identifier of a leg is [None] or truthy: not 0 and not the
    empty string. *)
Definition plain_trip_id (leg : Connection.t) : Prop :=
  py_truthy (Connection.trip_id leg) = py_is_not_None (Connection.trip_id leg).

(** A leg after the first is counted as a boarding when its trip identifier
    is truthy and is not the trip identifier of the leg before. *)
Definition boards_after (p : Connection.t * Connection.t) : bool :=
  py_truthy (Connection.trip_id (snd p))
  && py_ne (Connection.trip_id (snd p)) (Connection.trip_id (fst p)).

(** No leg departs before the previous leg has arrived. *)
Definition chronological (ls : list Connection.t) : Prop :=
  Forall (fun p => Connection.arrival_time (fst p)
                   <= Connection.departure_time (snd p))
         (consecutive ls).

(** Every leg departs where the previous leg arrived. *)
Definition chained (ls : list Connection.t) : Prop :=
  Forall (fun p => Connection.arrival_stop (fst p)
                   = Connection.departure_stop (snd p))
         (consecutive ls).

(** A leg is a walk exactly when it has no trip identifier. *)
Definition walk_iff_no_trip (leg : Connection.t) : Prop :=
  Connection.is_walk leg = negb (py_is_not_None (Connection.trip_id leg)).

(** Sum of a list of integers, by structural recursion. *)
Definition sumZ (l : list Z) : Z := fold_right Z.add 0 l.

(** * Properties *)

(** ** Running [add_leg] *)

Lemma add_leg_Connection (self : t) (leg : Connection.t) :
  add_leg (PyConnection leg) self = (Ok tt, appended self leg).
Proof.
  destruct self as [ls d a ids n].
  unfold add_leg, appended, bind, assert_Connection, ret, get, when.
  unfold boards, not_legs; simpl.
  destruct ls as [|l0 ls]; simpl.
  - destruct (py_truthy (Connection.trip_id leg)); reflexivity.
  - match goal with
    | |- context [py_truthy ?v && ?b] => destruct (py_truthy v && b)
    end; reflexivity.
Qed.

Lemma add_leg_not_Connection (self : t) (v : pyval) :
  add_leg (PyOther v) self = (Raise AssertionError, self).
Proof. reflexivity. Qed.

Lemma for_each_app {A : Type} (xs ys : list A) (body : A -> M unit) (self : t) :
  for_each (xs ++ ys) body self =
  (for_each xs body ;; for_each ys body) self.
Proof.
  revert self; induction xs as [|x xs IH]; intros self; simpl.
  - reflexivity.
  - unfold bind in *. destruct (body x self) as [[[]|e] self']; [|reflexivity].
    apply IH.
Qed.

Lemma for_each_add_leg_Connections (ls : list Connection.t) (self : t) :
  for_each (map PyConnection ls) add_leg self =
  (Ok tt, fold_left appended ls self).
Proof.
  revert self; induction ls as [|l ls IH]; intros self; simpl.
  - reflexivity.
  - unfold bind. rewrite add_leg_Connection. apply IH.
Qed.

Lemma build_fold (ls : list Connection.t) :
  build ls = fold_left appended ls fresh.
Proof. unfold build, init. by rewrite for_each_add_leg_Connections. Qed.

Lemma build_nil : build [] = fresh.
Proof. reflexivity. Qed.

Lemma build_snoc (ls : list Connection.t) (leg : Connection.t) :
  build (ls ++ [leg]) = appended (build ls) leg.
Proof. by rewrite !build_fold, fold_left_app. Qed.

Lemma legs_build (ls : list Connection.t) : legs (build ls) = ls.
Proof.
  induction ls as [|leg ls IH] using rev_ind; [reflexivity|].
  rewrite build_snoc; simpl. by rewrite IH.
Qed.

Lemma after_add_leg_Connection (self : t) (leg : Connection.t) :
  after_add_leg self (PyConnection leg) = appended self leg.
Proof. unfold after_add_leg. by rewrite add_leg_Connection. Qed.

(** ** The boarding tally *)

(** What the condition of the increment in [add_leg] tests: the trip
    identifier is truthy, and the journey has no leg yet or its last leg has
    another trip identifier. *)
Lemma boards_iff (self : t) (leg : Connection.t) :
  boards self leg = true <->
  py_truthy (Connection.trip_id leg) = true /\
  (legs self = [] \/
   exists prev, last (legs self) = Some prev /\
                Connection.trip_id leg <> Connection.trip_id prev).
Proof.
  unfold boards, not_legs, py_ne.
  rewrite andb_true_iff, orb_true_iff.
  split; intros [Ht Hl]; split; try assumption.
  - destruct Hl as [Hl|Hl].
    + left. by destruct (legs self).
    + right. destruct (last (legs self)) as [prev|]; [|discriminate].
      exists prev. split; [reflexivity|].
      apply negb_true_iff, bool_decide_eq_false in Hl. exact Hl.
  - destruct Hl as [Hl|[prev [Hp Hne]]].
    + left. by rewrite Hl.
    + right. rewrite Hp. by apply negb_true_iff, bool_decide_eq_false.
Qed.

Lemma n_boardings_appended (self : t) (leg : Connection.t) :
  n_boardings (appended self leg) =
  n_boardings self + (if boards self leg then 1 else 0).
Proof. simpl. destruct (boards self leg); lia. Qed.

Lemma boards_falsy (self : t) (leg : Connection.t) :
  py_truthy (Connection.trip_id leg) = false -> boards self leg = false.
Proof. intros H. unfold boards. by rewrite H. Qed.

Lemma trip_ids_after_add_leg (self : t) (o : pyobj) :
  trip_ids (after_add_leg self o) = trip_ids self.
Proof.
  destruct o as [leg|v].
  - by rewrite after_add_leg_Connection.
  - reflexivity.
Qed.

Lemma trip_ids_for_each_add_leg (objs : list pyobj) (self : t) :
  trip_ids (snd (for_each objs add_leg self)) = trip_ids self.
Proof.
  revert self; induction objs as [|o objs IH]; intros self; simpl.
  - reflexivity.
  - unfold bind. pose proof (trip_ids_after_add_leg self o) as Ho.
    unfold after_add_leg in Ho.
    destruct (add_leg o self) as [[[]|e] self']; simpl in *.
    + by rewrite IH.
    + exact Ho.
Qed.

Lemma departure_time_build (first : Connection.t) (ls : list Connection.t) :
  departure_time (build (first :: ls)) =
  Some (Connection.departure_time first).
Proof.
  induction ls as [|leg ls IH] using rev_ind; [by rewrite build_fold|].
  rewrite app_comm_cons, build_snoc; simpl.
  unfold not_legs. rewrite legs_build. exact IH.
Qed.

Lemma arrival_time_build (ls : list Connection.t) (newest : Connection.t) :
  arrival_time (build (ls ++ [newest])) =
  Some (Connection.arrival_time newest).
Proof. by rewrite build_snoc. Qed.

Lemma invehicle_times_appended (self : t) (leg : Connection.t) (l : list Z) :
  get_invehicle_times self = Ok l ->
  get_invehicle_times (appended self leg) =
  Ok (if py_is_not_None (Connection.trip_id leg)
      then l ++ [Connection.duration leg] else l).
Proof.
  unfold get_invehicle_times; simpl. intros [= <-].
  rewrite fold_left_app; simpl.
  by destruct (py_is_not_None (Connection.trip_id leg)).
Qed.

(** ** Properties of [add_leg] *)

(** C1 (the code departs from the claim).  The claim: [add_leg] increments
    [n_boardings] exactly when the trip identifier of the leg is not [None]
    and the journey is empty or its last leg has another trip identifier.
    [add_leg] tests the truthiness of the trip identifier instead: on the
    empty journey, a leg whose trip identifier is the integer 0 (not [None])
    is appended without error and [n_boardings] stays 0. *)
Theorem add_leg_trip_id_zero_not_counted :
  Connection.trip_id Examples.leg_trip0 <> PyNone /\
  legs fresh = [] /\
  add_leg (PyConnection Examples.leg_trip0) fresh =
    (Ok tt, appended fresh Examples.leg_trip0) /\
  n_boardings (after_add_leg fresh (PyConnection Examples.leg_trip0)) =
    n_boardings fresh.
Proof.
  split; [discriminate|]. split; [reflexivity|].
  split; [apply add_leg_Connection|].
  rewrite after_add_leg_Connection, n_boardings_appended.
  rewrite boards_falsy by reflexivity. lia.
Qed.

(** C5.  For legs L1..Ln (n >= 1) appended in order to the empty journey,
    [departure_time] is the departure time of L1 and [arrival_time] the
    arrival time of Ln; any further appends leave [departure_time] as it is,
    and every append, to any journey, sets [arrival_time] to the arrival time
    of the appended leg. *)
Theorem build_departure_arrival
    (ls : list Connection.t) (first newest : Connection.t)
    (Hfirst : head ls = Some first) (Hnewest : last ls = Some newest) :
  departure_time (build ls) = Some (Connection.departure_time first) /\
  arrival_time (build ls) = Some (Connection.arrival_time newest) /\
  (forall more : list Connection.t,
     departure_time (build (ls ++ more)) = departure_time (build ls)) /\
  (forall (self : t) (leg : Connection.t),
     legs self <> [] ->
     departure_time (after_add_leg self (PyConnection leg)) =
       departure_time self) /\
  (forall (self : t) (leg : Connection.t),
     arrival_time (after_add_leg self (PyConnection leg)) =
       Some (Connection.arrival_time leg)).
Proof.
  destruct ls as [|l0 ls]; [discriminate|].
  simpl in Hfirst. injection Hfirst as ->.
  split; [apply departure_time_build|].
  split.
  - destruct (last_Some (first :: ls) newest) as [[init Hinit] _];
      [exact Hnewest|].
    rewrite Hinit. apply arrival_time_build.
  - split.
    + intros more. simpl. by rewrite !departure_time_build.
    + split; intros self leg.
      * intros Hne. rewrite after_add_leg_Connection; simpl.
        unfold not_legs. by destruct (legs self).
      * by rewrite after_add_leg_Connection.
Qed.

Lemma build_departure_arrival_witness :
  head [Examples.leg_A; Examples.leg_B; Examples.leg_C] = Some Examples.leg_A /\
  last [Examples.leg_A; Examples.leg_B; Examples.leg_C] = Some Examples.leg_C /\
  departure_time (build [Examples.leg_A; Examples.leg_B; Examples.leg_C]) =
    Some 0 /\
  arrival_time (build [Examples.leg_A; Examples.leg_B; Examples.leg_C]) =
    Some 1800.
Proof.
  split; [reflexivity|]. split; [reflexivity|].
  pose proof (build_departure_arrival
                [Examples.leg_A; Examples.leg_B; Examples.leg_C]
                Examples.leg_A Examples.leg_C eq_refl eq_refl) as H.
  split; [exact (proj1 H)|exact (proj1 (proj2 H))].
Defined.

(** C8.  For every journey, [add_leg] called with a value that is not a
    [Connection] raises [AssertionError] and leaves the journey as it was:
    [legs], [departure_time], [arrival_time], [n_boardings] and [trip_ids]
    are all unchanged. *)
Theorem add_leg_rejects_non_Connection (self : t) (o : pyobj)
    (Hno : isinstance_Connection o = false) :
  add_leg o self = (Raise AssertionError, self) /\
  legs (after_add_leg self o) = legs self /\
  departure_time (after_add_leg self o) = departure_time self /\
  arrival_time (after_add_leg self o) = arrival_time self /\
  n_boardings (after_add_leg self o) = n_boardings self /\
  trip_ids (after_add_leg self o) = trip_ids self.
Proof.
  destruct o as [leg|v]; [discriminate|].
  unfold after_add_leg. rewrite add_leg_not_Connection. simpl. tauto.
Qed.

Lemma add_leg_rejects_non_Connection_witness :
  isinstance_Connection (PyOther (PyInt 7)) = false /\
  add_leg (PyOther (PyInt 7)) (build [Examples.leg_A]) =
    (Raise AssertionError, build [Examples.leg_A]).
Proof.
  split; [reflexivity|].
  exact (proj1 (add_leg_rejects_non_Connection
                  (build [Examples.leg_A]) (PyOther (PyInt 7)) eq_refl)).
Defined.

(** C9.  [trip_ids] is the empty set in a freshly constructed journey,
    whatever list of legs the constructor is given, and it is still the empty
    set after any sequence of [add_leg] calls on it. *)
Theorem trip_ids_always_empty (legs0 : option (list pyobj)) (objs : list pyobj) :
  trip_ids (snd (init legs0)) = ∅ /\
  trip_ids (snd (for_each objs add_leg (snd (init legs0)))) = ∅.
Proof.
  assert (trip_ids (snd (init legs0)) = ∅) as H0.
  { destruct legs0 as [ls|]; simpl; [|reflexivity].
    by rewrite trip_ids_for_each_add_leg. }
  split; [exact H0|]. by rewrite trip_ids_for_each_add_leg.
Qed.

(** C10.  A leg whose trip identifier is not [None] but falsy, such as the
    integer 0 or the empty string, leaves [n_boardings] unchanged when it is
    appended to any journey, and its duration is nevertheless appended to
    the list that [get_invehicle_times] returns. *)
Theorem falsy_trip_id_not_boarded_but_invehicle
    (self : t) (leg : Connection.t) (times : list Z)
    (Hnonnull : Connection.trip_id leg <> PyNone)
    (Hfalsy : py_truthy (Connection.trip_id leg) = false)
    (Htimes : get_invehicle_times self = Ok times) :
  n_boardings (after_add_leg self (PyConnection leg)) = n_boardings self /\
  get_invehicle_times (after_add_leg self (PyConnection leg)) =
    Ok (times ++ [Connection.duration leg]) /\
  py_truthy (PyInt 0) = false /\ py_truthy (PyStr EmptyString) = false.
Proof.
  rewrite after_add_leg_Connection, n_boardings_appended.
  rewrite (boards_falsy self leg Hfalsy).
  split; [lia|]. split; [|split; reflexivity].
  rewrite (invehicle_times_appended self leg times Htimes).
  destruct (Connection.trip_id leg); [congruence|reflexivity..].
Qed.

Lemma falsy_trip_id_not_boarded_but_invehicle_witness :
  Connection.trip_id Examples.leg_trip0 <> PyNone /\
  py_truthy (Connection.trip_id Examples.leg_trip0) = false /\
  get_invehicle_times (build [Examples.leg_A]) = Ok [600] /\
  n_boardings (after_add_leg (build [Examples.leg_A])
                             (PyConnection Examples.leg_trip0)) =
    n_boardings (build [Examples.leg_A]) /\
  get_invehicle_times (after_add_leg (build [Examples.leg_A])
                                     (PyConnection Examples.leg_trip0)) =
    Ok ([600] ++ [Connection.duration Examples.leg_trip0]).
Proof.
  assert (Connection.trip_id Examples.leg_trip0 <> PyNone) as Hn
    by (simpl; discriminate).
  assert (get_invehicle_times (build [Examples.leg_A]) = Ok [600]) as Ht
    by (vm_compute; reflexivity).
  split; [exact Hn|]. split; [reflexivity|]. split; [exact Ht|].
  pose proof (falsy_trip_id_not_boarded_but_invehicle
                (build [Examples.leg_A]) Examples.leg_trip0 [600]
                Hn eq_refl Ht) as H.
  split; [exact (proj1 H)|exact (proj1 (proj2 H))].
Defined.

(** ** Loops over consecutive legs *)

Lemma length_consecutive {A : Type} (l : list A) :
  length (consecutive l) = (length l - 1)%nat.
Proof.
  induction l as [|x [|y l] IH]; simpl in *; try reflexivity.
  rewrite IH. lia.
Qed.

Lemma consecutive_cons2 {A : Type} (x y : A) (l : list A) :
  consecutive (x :: y :: l) = (x, y) :: consecutive (y :: l).
Proof. reflexivity. Qed.

Lemma tsp_step_after (prev leg : Connection.t) (acc : list (Z * Z)) :
  tsp_step (mk_tsp acc (Some (Connection.arrival_stop prev))
                   (Connection.trip_id prev)) leg =
  mk_tsp (if changes_trip (prev, leg)
          then acc ++ [stop_pair (prev, leg)] else acc)
         (Some (Connection.arrival_stop leg)) (Connection.trip_id leg).
Proof. reflexivity. Qed.

Lemma tsp_fold_from (prev : Connection.t) (ls : list Connection.t)
    (acc : list (Z * Z)) :
  transfer_stop_pairs
    (fold_left tsp_step ls
       (mk_tsp acc (Some (Connection.arrival_stop prev))
               (Connection.trip_id prev))) =
  acc ++ map stop_pair (List.filter changes_trip (consecutive (prev :: ls))).
Proof.
  revert prev acc; induction ls as [|leg ls IH]; intros prev acc.
  - simpl. by rewrite app_nil_r.
  - cbn [fold_left]. rewrite tsp_step_after, IH, consecutive_cons2.
    cbn [List.filter].
    destruct (changes_trip (prev, leg)); [|reflexivity].
    cbn [map]. by rewrite <- app_assoc.
Qed.

Lemma get_transfer_stop_pairs_consecutive (self : t) :
  get_transfer_stop_pairs self =
  Ok (map stop_pair (List.filter changes_trip (consecutive (legs self)))).
Proof.
  unfold get_transfer_stop_pairs. f_equal.
  destruct (legs self) as [|first ls]; [reflexivity|].
  cbn [fold_left].
  change (tsp_step (mk_tsp [] None PyNone) first)
    with (mk_tsp [] (Some (Connection.arrival_stop first))
                 (Connection.trip_id first)).
  by rewrite tsp_fold_from.
Qed.

Lemma consecutive_snoc {A : Type} (l : list A) (x y : A) :
  consecutive (l ++ [x; y]) = consecutive (l ++ [x]) ++ [(x, y)].
Proof.
  induction l as [|a [|b l] IH]; try reflexivity.
  change (consecutive ((a :: b :: l) ++ [x; y]))
    with ((a, b) :: consecutive ((b :: l) ++ [x; y])).
  rewrite IH. reflexivity.
Qed.

Lemma consecutive_snoc1 {A : Type} (l : list A) (prev x : A) :
  last l = Some prev ->
  consecutive (l ++ [x]) = consecutive l ++ [(prev, x)].
Proof.
  intros Hl. destruct (last_Some l prev) as [[l' ->] _]; [exact Hl|].
  rewrite <- app_assoc. simpl. apply consecutive_snoc.
Qed.

Lemma wt_step_after (prev leg : Connection.t) (acc : list Z) :
  wt_step (mk_wt acc (Some (Connection.arrival_time prev))) leg =
  mk_wt (if arrived_nonzero (prev, leg) then acc ++ [gap (prev, leg)] else acc)
        (Some (Connection.arrival_time leg)).
Proof. reflexivity. Qed.

Lemma wt_fold_from (prev : Connection.t) (ls : list Connection.t)
    (acc : list Z) :
  waiting_times
    (fold_left wt_step ls (mk_wt acc (Some (Connection.arrival_time prev)))) =
  acc ++ map gap (List.filter arrived_nonzero (consecutive (prev :: ls))).
Proof.
  revert prev acc; induction ls as [|leg ls IH]; intros prev acc.
  - simpl. by rewrite app_nil_r.
  - cbn [fold_left]. rewrite wt_step_after, IH, consecutive_cons2.
    cbn [List.filter].
    destruct (arrived_nonzero (prev, leg)); [|reflexivity].
    cbn [map]. by rewrite <- app_assoc.
Qed.

(** [get_waiting_times] returns the gap before every leg whose predecessor
    arrives at a time other than 0. *)
Lemma get_waiting_times_consecutive (self : t) :
  get_waiting_times self =
  Ok (map gap (List.filter arrived_nonzero (consecutive (legs self)))).
Proof.
  unfold get_waiting_times. f_equal.
  destruct (legs self) as [|first ls]; [reflexivity|].
  cbn [fold_left].
  change (wt_step (mk_wt [] None) first)
    with (mk_wt [] (Some (Connection.arrival_time first))).
  by rewrite wt_fold_from.
Qed.

Lemma filter_arrived_nonzero (ls : list Connection.t) :
  Forall (fun leg => Connection.arrival_time leg <> 0) ls ->
  List.filter arrived_nonzero (consecutive ls) = consecutive ls.
Proof.
  induction ls as [|x [|y ls] IH]; intros Hall; try reflexivity.
  rewrite consecutive_cons2. cbn [List.filter].
  inversion Hall as [|? ? Hx Hrest]; subst.
  assert (arrived_nonzero (x, y) = true) as ->.
  { unfold arrived_nonzero, py_truthy_int; cbn [fst].
    by destruct (Z.eqb_spec (Connection.arrival_time x) 0). }
  f_equal. by apply IH.
Qed.

(** When no leg arrives at time 0, [get_waiting_times] returns the gap
    before every leg after the first: one value less than there are legs. *)
Lemma get_waiting_times_nonzero (ls : list Connection.t) :
  Forall (fun leg => Connection.arrival_time leg <> 0) ls ->
  get_waiting_times (build ls) = Ok (map gap (consecutive ls)) /\
  length (map gap (consecutive ls)) = (length ls - 1)%nat /\
  get_total_waiting_time (build ls) = Ok (py_sum (map gap (consecutive ls))).
Proof.
  intros Hall. unfold get_total_waiting_time.
  rewrite get_waiting_times_consecutive, legs_build.
  rewrite filter_arrived_nonzero by exact Hall.
  by rewrite length_map, length_consecutive.
Qed.

(** ** Dominance *)

Lemma times_build (ls : list Connection.t) :
  (1 <= length ls)%nat ->
  exists d a : Z,
    departure_time (build ls) = Some d /\ arrival_time (build ls) = Some a.
Proof.
  intros Hlen. destruct ls as [|first ls]; [simpl in Hlen; lia|].
  destruct (exists_last (l := first :: ls)) as [init [newest Heq]];
    [discriminate|].
  exists (Connection.departure_time first), (Connection.arrival_time newest).
  split; [apply departure_time_build|].
  rewrite Heq. apply arrival_time_build.
Qed.

(** The value of [dominates] on two journeys whose times are set. *)
Lemma dominates_times_set (self other : t) (d1 a1 d2 a2 : Z)
    (consider_time consider_boardings : bool) :
  departure_time self = Some d1 -> arrival_time self = Some a1 ->
  departure_time other = Some d2 -> arrival_time other = Some a2 ->
  dominates self other consider_time consider_boardings =
  Ok ((if consider_time then (d2 <=? d1) && (a1 <=? a2) else true)
      && (if consider_boardings
          then n_boardings self <=? n_boardings other else true)).
Proof.
  intros Hd1 Ha1 Hd2 Ha2.
  unfold dominates, dominates_time, dominates_boardings.
  rewrite Hd1, Ha1, Hd2, Ha2. simpl.
  destruct consider_time, consider_boardings; simpl;
    repeat match goal with
           | |- context [?x <=? ?y] => destruct (x <=? y); simpl
           end; reflexivity.
Qed.

Lemma dominates_no_criteria (self other : t) :
  dominates self other false false = Ok true.
Proof. reflexivity. Qed.

(** C2.  For two journeys with at least one leg each, [dominates] returns
    true exactly when (if [consider_time] is set) self departs no earlier
    and arrives no later than other and (if [consider_boardings] is set)
    self has no more boardings than other; with both flags unset it returns
    true for every pair of journeys. *)
Theorem dominates_iff (ls1 ls2 : list Connection.t)
    (consider_time consider_boardings : bool)
    (Hlen1 : (1 <= length ls1)%nat) (Hlen2 : (1 <= length ls2)%nat) :
  (exists (d1 a1 d2 a2 : Z) (b : bool),
     departure_time (build ls1) = Some d1 /\
     arrival_time (build ls1) = Some a1 /\
     departure_time (build ls2) = Some d2 /\
     arrival_time (build ls2) = Some a2 /\
     dominates (build ls1) (build ls2) consider_time consider_boardings
       = Ok b /\
     (b = true <->
      (consider_time = true -> d1 >= d2 /\ a1 <= a2) /\
      (consider_boardings = true ->
       n_boardings (build ls1) <= n_boardings (build ls2)))) /\
  (forall self other : t, dominates self other false false = Ok true).
Proof.
  split; [|apply dominates_no_criteria].
  destruct (times_build ls1 Hlen1) as [d1 [a1 [Hd1 Ha1]]].
  destruct (times_build ls2 Hlen2) as [d2 [a2 [Hd2 Ha2]]].
  exists d1, a1, d2, a2. eexists.
  repeat (split; [eassumption|]).
  split; [apply (dominates_times_set _ _ d1 a1 d2 a2); assumption|].
  rewrite andb_true_iff.
  destruct consider_time, consider_boardings;
    rewrite ?andb_true_iff, ?Z.leb_le; intuition (try lia; try discriminate).
Qed.

Lemma dominates_iff_witness :
  let j1 := [Connection.mk 1 2 100 500 (PyStr "T1") false 0] in
  let j2 := [Connection.mk 1 3 50 300 (PyStr "T2") false 0;
             Connection.mk 3 2 350 600 (PyStr "T3") false 0] in
  (1 <= length j1)%nat /\ (1 <= length j2)%nat /\
  (exists (d1 a1 d2 a2 : Z) (b : bool),
     departure_time (build j1) = Some d1 /\
     arrival_time (build j1) = Some a1 /\
     departure_time (build j2) = Some d2 /\
     arrival_time (build j2) = Some a2 /\
     dominates (build j1) (build j2) true true = Ok b /\
     (b = true <->
      (true = true -> d1 >= d2 /\ a1 <= a2) /\
      (true = true -> n_boardings (build j1) <= n_boardings (build j2)))).
Proof.
  intros j1 j2.
  assert ((1 <= length j1)%nat) as H1 by (simpl; lia).
  assert ((1 <= length j2)%nat) as H2 by (simpl; lia).
  split; [exact H1|]. split; [exact H2|].
  exact (proj1 (dominates_iff j1 j2 true true H1 H2)).
Defined.

(** C7.  Dominance is reflexive: a journey with at least one leg dominates
    itself, for every setting of the two flags. *)
Theorem dominates_refl (ls : list Connection.t)
    (consider_time consider_boardings : bool)
    (Hlen : (1 <= length ls)%nat) :
  dominates (build ls) (build ls) consider_time consider_boardings = Ok true.
Proof.
  destruct (times_build ls Hlen) as [d [a [Hd Ha]]].
  rewrite (dominates_times_set _ _ d a d a) by assumption.
  rewrite !Z.leb_refl. by destruct consider_time, consider_boardings.
Qed.

Lemma dominates_refl_witness :
  (1 <= length [Examples.leg_A; Examples.leg_B; Examples.leg_C])%nat /\
  dominates (build [Examples.leg_A; Examples.leg_B; Examples.leg_C])
            (build [Examples.leg_A; Examples.leg_B; Examples.leg_C])
            true true = Ok true.
Proof.
  assert ((1 <= length [Examples.leg_A; Examples.leg_B; Examples.leg_C])%nat)
    as H by (simpl; lia).
  split; [exact H|].
  exact (dominates_refl [Examples.leg_A; Examples.leg_B; Examples.leg_C]
                        true true H).
Defined.

(** ** Transfer stop pairs: the claim and the code *)

Lemma filter_changes_trip_walk (prev walk : Connection.t) :
  Connection.trip_id walk = PyNone -> changes_trip (prev, walk) = false.
Proof. intros H. unfold changes_trip; simpl. by rewrite H. Qed.

Lemma changes_trip_after_walk (walk ride : Connection.t) :
  Connection.trip_id walk = PyNone ->
  Connection.trip_id ride <> PyNone ->
  changes_trip (walk, ride) = true.
Proof.
  intros Hw Hr. unfold changes_trip, py_ne; simpl. rewrite Hw.
  destruct (Connection.trip_id ride); [congruence|reflexivity..].
Qed.

Lemma consecutive_snoc_filter_walk (ls : list Connection.t)
    (walk : Connection.t) :
  Connection.trip_id walk = PyNone ->
  List.filter changes_trip (consecutive (ls ++ [walk])) =
  List.filter changes_trip (consecutive ls).
Proof.
  intros Hw. destruct (last ls) as [prev|] eqn:Hl.
  - rewrite (consecutive_snoc1 ls prev walk Hl), List.filter_app.
    cbn [List.filter]. rewrite (filter_changes_trip_walk prev walk Hw).
    by rewrite app_nil_r.
  - apply last_None in Hl. by subst ls.
Qed.

(** C3 (counterexample).  A ride on trip T1, a walk, and another ride on
    T1: the last leg has the trip identifier of the most recently seen leg
    that has one, so the claim has no pair emitted; the code emits (3, 3),
    since it compares with the walk just before. *)
Lemma transfer_stop_pairs_not_latest_trip :
  get_transfer_stop_pairs
    (build [Examples.leg_A; Examples.leg_walk; Examples.leg_A']) =
    Ok [(3, 3)] /\
  transfer_stop_pairs_latest_trip
    [Examples.leg_A; Examples.leg_walk; Examples.leg_A'] = [] /\
  get_transfer_stop_pairs
    (build [Examples.leg_A; Examples.leg_walk; Examples.leg_A']) <>
    Ok (transfer_stop_pairs_latest_trip
          (legs (build [Examples.leg_A; Examples.leg_walk; Examples.leg_A']))).
Proof.
  split; [vm_compute; reflexivity|].
  split; [vm_compute; reflexivity|].
  vm_compute. discriminate.
Qed.

(** C3 (amended).  For every journey, [get_transfer_stop_pairs] returns, in
    leg order, the pair (arrival stop of the previous leg, departure stop of
    the leg) exactly for each leg after the first whose trip identifier is
    not [None] and differs from the trip identifier, [None] or not, of the
    leg just before it.  A walking leg appended to a journey adds no pair,
    and a ride appended after it adds the pair that starts at the arrival
    stop of the walk. *)
Theorem get_transfer_stop_pairs_previous_leg
    (self : t) (walk ride : Connection.t)
    (Hwalk : Connection.trip_id walk = PyNone)
    (Hride : Connection.trip_id ride <> PyNone) :
  get_transfer_stop_pairs self =
    Ok (map stop_pair
          (List.filter changes_trip (consecutive (legs self)))) /\
  get_transfer_stop_pairs (after_add_leg self (PyConnection walk)) =
    get_transfer_stop_pairs self /\
  get_transfer_stop_pairs
    (after_add_leg (after_add_leg self (PyConnection walk))
                   (PyConnection ride)) =
    Ok (map stop_pair (List.filter changes_trip (consecutive (legs self)))
        ++ [(Connection.arrival_stop walk, Connection.departure_stop ride)]).
Proof.
  rewrite !after_add_leg_Connection, !get_transfer_stop_pairs_consecutive.
  split; [reflexivity|]. cbn [legs appended]. split.
  - by rewrite consecutive_snoc_filter_walk.
  - rewrite (consecutive_snoc1 (legs self ++ [walk]) walk ride)
      by apply last_snoc.
    rewrite List.filter_app, consecutive_snoc_filter_walk by exact Hwalk.
    cbn [List.filter].
    rewrite (changes_trip_after_walk walk ride Hwalk Hride).
    by rewrite map_app.
Qed.

Lemma get_transfer_stop_pairs_previous_leg_witness :
  Connection.trip_id Examples.leg_walk = PyNone /\
  Connection.trip_id Examples.leg_A' <> PyNone /\
  get_transfer_stop_pairs
    (after_add_leg (after_add_leg (build [Examples.leg_A])
                                  (PyConnection Examples.leg_walk))
                   (PyConnection Examples.leg_A')) =
    Ok (map stop_pair
          (List.filter changes_trip
             (consecutive (legs (build [Examples.leg_A]))))
        ++ [(3, 3)]).
Proof.
  assert (Connection.trip_id Examples.leg_A' <> PyNone) as Hr
    by (simpl; discriminate).
  split; [reflexivity|]. split; [exact Hr|].
  exact (proj2 (proj2 (get_transfer_stop_pairs_previous_leg
                         (build [Examples.leg_A]) Examples.leg_walk
                         Examples.leg_A' eq_refl Hr))).
Defined.

(** ** Waiting times: the claim and the code *)

(** C4 (the code departs from the claim).  The claim: for n >= 1 legs,
    [get_waiting_times] returns the n - 1 gaps between consecutive legs and
    [get_total_waiting_time] their sum.  The loop tests [if
    previous_arrival:], so the gap after a leg that arrives at time 0 is
    left out: for a leg arriving at 0 followed by a leg departing at 10 the
    list is empty and the total is 0, where the claim has [10] and 10. *)
Theorem get_waiting_times_drops_gap_after_zero :
  length [Examples.leg_at0; Examples.leg_after0] = 2%nat /\
  gap (Examples.leg_at0, Examples.leg_after0) = 10 /\
  get_waiting_times (build [Examples.leg_at0; Examples.leg_after0]) = Ok [] /\
  get_total_waiting_time (build [Examples.leg_at0; Examples.leg_after0]) =
    Ok 0.
Proof. repeat split; vm_compute; reflexivity. Qed.

Lemma for_each_add_leg_legs_length (objs : list pyobj) (self : t) :
  (length (legs self) <=
   length (legs (snd (for_each objs add_leg self))))%nat.
Proof.
  revert self; induction objs as [|o objs IH]; intros self; simpl.
  - lia.
  - unfold bind. destruct o as [leg|v].
    + rewrite add_leg_Connection. specialize (IH (appended self leg)).
      simpl in IH. rewrite length_app in IH. simpl in IH. lia.
    + rewrite add_leg_not_Connection. simpl. lia.
Qed.

(** A constructed journey that has no legs is the blank journey. *)
Lemma init_no_legs (legs0 : option (list pyobj)) :
  legs (snd (init legs0)) = [] -> snd (init legs0) = fresh.
Proof.
  destruct legs0 as [[|o objs]|]; try reflexivity.
  simpl. unfold bind. destruct o as [leg|v].
  - rewrite add_leg_Connection. intros Hnil.
    pose proof (for_each_add_leg_legs_length objs (appended fresh leg)) as Hlen.
    rewrite Hnil in Hlen. simpl in Hlen. lia.
  - reflexivity.
Qed.

(** C6 (counterexample).  On the journey [ForwardJourney()], which has no
    legs, [get_transfers] returns 0: the accessors do not all fail. *)
Lemma accessors_do_not_all_fail_without_legs :
  legs (snd (init None)) = [] /\
  get_transfers (snd (init None)) = Ok 0 /\
  ~ all_accessors_fail (snd (init None)).
Proof.
  split; [reflexivity|]. split; [reflexivity|].
  intros (_ & Htransfers & _). exact Htransfers.
Qed.

(** C6 (amended).  On a constructed journey with zero legs,
    [get_travel_time] and [get_all_stops] fail with an error ([TypeError]
    and [IndexError]); [get_transfers], [get_total_waiting_time],
    [get_total_invehicle_time] and [get_total_walking_time] return 0, and
    [get_transfer_stop_pairs], [get_waiting_times], [get_invehicle_times]
    and [get_walking_times] return the empty list. *)
Theorem accessors_without_legs (legs0 : option (list pyobj))
    (Hnil : legs (snd (init legs0)) = []) :
  get_travel_time (snd (init legs0)) = Raise TypeError /\
  get_all_stops (snd (init legs0)) = Raise IndexError /\
  get_transfers (snd (init legs0)) = Ok 0 /\
  get_transfer_stop_pairs (snd (init legs0)) = Ok [] /\
  get_waiting_times (snd (init legs0)) = Ok [] /\
  get_total_waiting_time (snd (init legs0)) = Ok 0 /\
  get_invehicle_times (snd (init legs0)) = Ok [] /\
  get_total_invehicle_time (snd (init legs0)) = Ok 0 /\
  get_walking_times (snd (init legs0)) = Ok [] /\
  get_total_walking_time (snd (init legs0)) = Ok 0.
Proof.
  rewrite (init_no_legs legs0 Hnil). repeat split; reflexivity.
Qed.

Lemma accessors_without_legs_witness :
  legs (snd (init (Some []))) = [] /\
  get_travel_time (snd (init (Some []))) = Raise TypeError /\
  get_transfers (snd (init (Some []))) = Ok 0.
Proof.
  split; [reflexivity|].
  pose proof (accessors_without_legs (Some []) eq_refl) as H.
  split; [exact (proj1 H)|exact (proj1 (proj2 (proj2 H)))].
Defined.

(** * Further properties of the journey *)

(** ** The constructor and the legs *)

Lemma for_each_add_leg_leading (objs : list pyobj) (self : t) :
  for_each objs add_leg self =
  (if forallb isinstance_Connection objs then Ok tt else Raise AssertionError,
   fold_left appended (leading_connections objs) self).
Proof.
  revert self; induction objs as [|o objs IH]; intros self; [reflexivity|].
  cbn [for_each]. unfold bind. destruct o as [leg|v].
  - rewrite add_leg_Connection. apply IH.
  - reflexivity.
Qed.

(** X1.  [ForwardJourney(legs)] returns normally exactly when every element
    of [legs] is a [Connection] and raises [AssertionError] otherwise; in
    both cases the object has received the connections that precede the
    first element that is not one, appended in order. *)
Theorem init_leading_connections (objs : list pyobj) :
  init (Some objs) =
  (if forallb isinstance_Connection objs then Ok tt else Raise AssertionError,
   build (leading_connections objs)).
Proof.
  unfold init. rewrite for_each_add_leg_leading. by rewrite build_fold.
Qed.

(** X2.  [get_legs] returns the appended connections in the order of the
    calls, and a further [add_leg] puts its connection at the end. *)
Theorem get_legs_build (ls : list Connection.t) (leg : Connection.t) :
  get_legs (build ls) = Ok ls /\
  get_legs (after_add_leg (build ls) (PyConnection leg)) = Ok (ls ++ [leg]).
Proof.
  unfold get_legs. rewrite after_add_leg_Connection. cbn [legs appended].
  by rewrite legs_build.
Qed.

Lemma travel_time_first_last (ls : list Connection.t) :
  get_travel_time (build ls) =
  match head ls, last ls with
  | Some first, Some newest =>
      Ok (Connection.arrival_time newest - Connection.departure_time first)
  | _, _ => Raise TypeError
  end.
Proof.
  destruct ls as [|first ls]; [reflexivity|].
  destruct (exists_last (l := first :: ls)) as [front [newest Heq]];
    [discriminate|].
  unfold get_travel_time. rewrite departure_time_build.
  rewrite Heq at 1. rewrite arrival_time_build.
  cbn [head]. rewrite Heq, last_snoc. reflexivity.
Qed.

(** X3.  [get_travel_time] raises [TypeError] on the journey without legs,
    and on a journey with legs it returns the arrival time of the last leg
    minus the departure time of the first. *)
Theorem get_travel_time_build (ls : list Connection.t) :
  get_travel_time (build ls) =
  match head ls, last ls with
  | Some first, Some newest =>
      Ok (Connection.arrival_time newest - Connection.departure_time first)
  | _, _ => Raise TypeError
  end.
Proof. apply travel_time_first_last. Qed.

Lemma fold_left_snoc_map {A B : Type} (f : A -> B) (l : list A)
    (acc : list B) :
  fold_left (fun acc x => acc ++ [f x]) l acc = acc ++ map f l.
Proof.
  revert acc; induction l as [|x l IH]; intros acc; simpl.
  - by rewrite app_nil_r.
  - by rewrite IH, <- app_assoc.
Qed.

(** X4.  On a journey with legs, [get_all_stops] returns the departure stop
    of every leg, in order, followed by the arrival stop of the last leg:
    one stop more than there are legs. *)
Theorem get_all_stops_build (ls : list Connection.t) (newest : Connection.t)
    (Hnewest : last ls = Some newest) :
  get_all_stops (build ls) =
    Ok (map Connection.departure_stop ls ++ [Connection.arrival_stop newest]) /\
  length (map Connection.departure_stop ls ++ [Connection.arrival_stop newest])
    = S (length ls).
Proof.
  split.
  - unfold get_all_stops, legs_last. rewrite legs_build, Hnewest.
    by rewrite fold_left_snoc_map.
  - rewrite length_app, length_map. simpl. lia.
Qed.

Lemma get_all_stops_build_witness :
  last [Examples.leg_A; Examples.leg_B; Examples.leg_C] = Some Examples.leg_C /\
  get_all_stops (build [Examples.leg_A; Examples.leg_B; Examples.leg_C]) =
    Ok [1; 2; 3; 4].
Proof.
  split; [reflexivity|].
  exact (proj1 (get_all_stops_build
                  [Examples.leg_A; Examples.leg_B; Examples.leg_C]
                  Examples.leg_C eq_refl)).
Defined.

(** ** Counting boardings *)

Lemma boards_build_snoc (ls : list Connection.t) (prev leg : Connection.t) :
  last ls = Some prev ->
  boards (build ls) leg = boards_after (prev, leg).
Proof.
  intros Hl. unfold boards, boards_after, not_legs. rewrite legs_build, Hl.
  destruct ls; [discriminate|]. reflexivity.
Qed.

Lemma n_boardings_build (first : Connection.t) (rest : list Connection.t) :
  n_boardings (build (first :: rest)) =
  (if py_truthy (Connection.trip_id first) then 1 else 0)
  + Z.of_nat (length (List.filter boards_after (consecutive (first :: rest)))).
Proof.
  induction rest as [|leg rest IH] using rev_ind.
  - change (build [first]) with (build ([] ++ [first])).
    rewrite build_snoc, n_boardings_appended, build_nil.
    unfold boards, not_legs. cbn.
    destruct (py_truthy (Connection.trip_id first)); reflexivity.
  - destruct (exists_last (l := first :: rest)) as [front [prev Heq]];
      [discriminate|].
    rewrite app_comm_cons, build_snoc, n_boardings_appended, IH.
    assert (last (first :: rest) = Some prev) as Hl
      by (rewrite Heq; apply last_snoc).
    rewrite (boards_build_snoc _ prev leg Hl).
    rewrite (consecutive_snoc1 _ prev leg Hl), List.filter_app, length_app.
    cbn [List.filter]. destruct (boards_after (prev, leg)); simpl; lia.
Qed.

(** X5.  The boarding count of a constructed journey is the number of legs
    that satisfy the test of [add_leg]: the first leg when its trip
    identifier is truthy, and each later leg whose trip identifier is truthy
    and is not the one of the leg before. *)
Theorem n_boardings_counts (first : Connection.t) (rest : list Connection.t) :
  n_boardings (build []) = 0 /\
  n_boardings (build (first :: rest)) =
    (if py_truthy (Connection.trip_id first) then 1 else 0)
    + Z.of_nat
        (length (List.filter boards_after (consecutive (first :: rest)))).
Proof. split; [reflexivity|apply n_boardings_build]. Qed.

Lemma length_filter_le {A : Type} (f : A -> bool) (l : list A) :
  (length (List.filter f l) <= length l)%nat.
Proof.
  induction l as [|x l IH]; simpl; [lia|].
  destruct (f x); simpl; lia.
Qed.

(** X6.  The boarding count of a constructed journey lies between 0 and the
    number of legs, and [get_transfers] returns a value between 0 and the
    number of legs less one (0 for a journey without legs). *)
Theorem n_boardings_bounds (ls : list Connection.t) :
  0 <= n_boardings (build ls) <= Z.of_nat (length ls) /\
  exists k : Z,
    get_transfers (build ls) = Ok k /\
    0 <= k <= Z.of_nat (length ls - 1).
Proof.
  assert (0 <= n_boardings (build ls) <= Z.of_nat (length ls)) as Hb.
  { destruct ls as [|first rest]; [rewrite build_nil; simpl; lia|].
    rewrite n_boardings_build.
    pose proof (length_filter_le boards_after (consecutive (first :: rest)))
      as Hle.
    rewrite length_consecutive in Hle. simpl in Hle. simpl length.
    destruct (py_truthy (Connection.trip_id first)); lia. }
  split; [exact Hb|].
  unfold get_transfers. eexists. split; [reflexivity|]. lia.
Qed.

Lemma py_is_not_None_true (v : pyval) :
  py_is_not_None v = true <-> v <> PyNone.
Proof. destruct v; simpl; split; congruence. Qed.

(** X7.  When the trip identifier of the appended leg is [None] or truthy,
    [add_leg] adds 1 to [n_boardings] exactly when the trip identifier is
    not [None] and the journey has no leg or its last leg has another trip
    identifier; otherwise [n_boardings] is unchanged. *)
Theorem add_leg_counts_plain_trip_id (self : t) (leg : Connection.t)
    (Hplain : plain_trip_id leg) :
  (n_boardings (after_add_leg self (PyConnection leg)) = n_boardings self + 1
   <->
   Connection.trip_id leg <> PyNone /\
   (legs self = [] \/
    exists prev, last (legs self) = Some prev /\
                 Connection.trip_id leg <> Connection.trip_id prev)) /\
  (n_boardings (after_add_leg self (PyConnection leg)) = n_boardings self + 1
   \/ n_boardings (after_add_leg self (PyConnection leg)) = n_boardings self).
Proof.
  rewrite after_add_leg_Connection, n_boardings_appended.
  rewrite <- py_is_not_None_true. unfold plain_trip_id in Hplain.
  rewrite <- Hplain, <- boards_iff.
  destruct (boards self leg); split; try split; try (intros; lia);
    try discriminate; auto.
Qed.

Lemma add_leg_counts_plain_trip_id_witness :
  plain_trip_id Examples.leg_C /\
  (n_boardings (after_add_leg (build [Examples.leg_A; Examples.leg_B])
                              (PyConnection Examples.leg_C))
   = n_boardings (build [Examples.leg_A; Examples.leg_B]) + 1
   <->
   Connection.trip_id Examples.leg_C <> PyNone /\
   (legs (build [Examples.leg_A; Examples.leg_B]) = [] \/
    exists prev,
      last (legs (build [Examples.leg_A; Examples.leg_B])) = Some prev /\
      Connection.trip_id Examples.leg_C <> Connection.trip_id prev)).
Proof.
  split; [reflexivity|].
  exact (proj1 (add_leg_counts_plain_trip_id
                  (build [Examples.leg_A; Examples.leg_B]) Examples.leg_C
                  eq_refl)).
Defined.

(** ** Transfers and transfer stop pairs *)

Lemma Forall_consecutive_snd {A : Type} (P : A -> Prop) (l : list A) :
  Forall P l -> Forall (fun p => P (snd p)) (consecutive l).
Proof.
  induction l as [|x [|y l] IH]; intros Hall; try constructor.
  - inversion Hall as [|? ? _ Hrest]; subst.
    inversion Hrest; subst. assumption.
  - apply IH. by inversion Hall.
Qed.

Lemma filter_changes_trip_plain (ls : list Connection.t) :
  Forall plain_trip_id ls ->
  List.filter changes_trip (consecutive ls) =
  List.filter boards_after (consecutive ls).
Proof.
  intros Hall. apply List.filter_ext_in. intros p Hin.
  pose proof (Forall_consecutive_snd _ _ Hall) as Hsnd.
  rewrite List.Forall_forall in Hsnd. specialize (Hsnd p Hin).
  unfold plain_trip_id in Hsnd. unfold changes_trip, boards_after.
  by rewrite Hsnd.
Qed.

(** X8.  In a journey whose trip identifiers are all [None] or truthy, the
    boarding count is the number of transfer stop pairs, plus one when the
    first leg has a trip identifier; if it has one, [get_transfers] returns
    the number of pairs that [get_transfer_stop_pairs] returns. *)
Theorem transfers_count_stop_pairs
    (first : Connection.t) (rest : list Connection.t)
    (Hplain : Forall plain_trip_id (first :: rest)) :
  exists pairs : list (Z * Z),
    get_transfer_stop_pairs (build (first :: rest)) = Ok pairs /\
    n_boardings (build (first :: rest)) =
      Z.of_nat (length pairs)
      + (if py_is_not_None (Connection.trip_id first) then 1 else 0) /\
    (Connection.trip_id first <> PyNone ->
     get_transfers (build (first :: rest)) = Ok (Z.of_nat (length pairs))).
Proof.
  eexists. split; [apply get_transfer_stop_pairs_consecutive|].
  rewrite legs_build, length_map, (filter_changes_trip_plain _ Hplain).
  assert (py_truthy (Connection.trip_id first)
          = py_is_not_None (Connection.trip_id first)) as Hfirst
    by (by inversion Hplain).
  split.
  - rewrite n_boardings_build, Hfirst. lia.
  - intros Hne. apply py_is_not_None_true in Hne.
    unfold get_transfers. rewrite n_boardings_build, Hfirst, Hne.
    f_equal. lia.
Qed.

Lemma transfers_count_stop_pairs_witness :
  Forall plain_trip_id [Examples.leg_A; Examples.leg_B; Examples.leg_C] /\
  exists pairs : list (Z * Z),
    get_transfer_stop_pairs
      (build [Examples.leg_A; Examples.leg_B; Examples.leg_C]) = Ok pairs /\
    n_boardings (build [Examples.leg_A; Examples.leg_B; Examples.leg_C]) =
      Z.of_nat (length pairs)
      + (if py_is_not_None (Connection.trip_id Examples.leg_A)
         then 1 else 0) /\
    (Connection.trip_id Examples.leg_A <> PyNone ->
     get_transfers (build [Examples.leg_A; Examples.leg_B; Examples.leg_C])
       = Ok (Z.of_nat (length pairs))).
Proof.
  assert (Forall plain_trip_id
            [Examples.leg_A; Examples.leg_B; Examples.leg_C]) as H
    by (repeat constructor).
  split; [exact H|].
  exact (transfers_count_stop_pairs Examples.leg_A
           [Examples.leg_B; Examples.leg_C] H).
Defined.

(** X9.  [get_transfer_stop_pairs] never fails and returns at most one pair
    per leg after the first. *)
Theorem get_transfer_stop_pairs_length (self : t) :
  exists pairs : list (Z * Z),
    get_transfer_stop_pairs self = Ok pairs /\
    (length pairs <= length (legs self) - 1)%nat.
Proof.
  eexists. split; [apply get_transfer_stop_pairs_consecutive|].
  rewrite length_map, <- length_consecutive. apply length_filter_le.
Qed.

(** X10.  When every leg departs from the stop at which the previous leg
    arrived, both stops of every transfer stop pair are the same stop. *)
Theorem get_transfer_stop_pairs_chained (self : t) (pairs : list (Z * Z))
    (Hchained : chained (legs self))
    (Hpairs : get_transfer_stop_pairs self = Ok pairs) :
  Forall (fun q => fst q = snd q) pairs.
Proof.
  rewrite get_transfer_stop_pairs_consecutive in Hpairs.
  injection Hpairs as <-.
  apply List.Forall_forall. intros q Hq.
  apply List.in_map_iff in Hq. destruct Hq as [p [<- Hp]].
  apply List.filter_In in Hp. destruct Hp as [Hp _].
  unfold chained in Hchained. rewrite List.Forall_forall in Hchained.
  exact (Hchained p Hp).
Qed.

Lemma get_transfer_stop_pairs_chained_witness :
  chained (legs (build [Examples.leg_A; Examples.leg_B; Examples.leg_C])) /\
  get_transfer_stop_pairs
    (build [Examples.leg_A; Examples.leg_B; Examples.leg_C]) = Ok [(3, 3)] /\
  Forall (fun q : Z * Z => fst q = snd q) [(3, 3)].
Proof.
  assert (chained
            (legs (build [Examples.leg_A; Examples.leg_B; Examples.leg_C])))
    as Hc by (repeat constructor).
  assert (get_transfer_stop_pairs
            (build [Examples.leg_A; Examples.leg_B; Examples.leg_C])
          = Ok [(3, 3)]) as Hp by (vm_compute; reflexivity).
  split; [exact Hc|]. split; [exact Hp|].
  exact (get_transfer_stop_pairs_chained _ _ Hc Hp).
Defined.

(** ** Waiting times *)

(** X11.  When no leg arrives at time 0, [get_waiting_times] returns the gap
    before every leg after the first, one value less than there are legs,
    and [get_total_waiting_time] returns the sum of these gaps. *)
Theorem get_waiting_times_all_gaps (ls : list Connection.t)
    (Hzero : Forall (fun leg => Connection.arrival_time leg <> 0) ls) :
  get_waiting_times (build ls) = Ok (map gap (consecutive ls)) /\
  length (map gap (consecutive ls)) = (length ls - 1)%nat /\
  get_total_waiting_time (build ls) = Ok (py_sum (map gap (consecutive ls))).
Proof. exact (get_waiting_times_nonzero ls Hzero). Qed.

Lemma get_waiting_times_all_gaps_witness :
  Forall (fun leg => Connection.arrival_time leg <> 0)
         [Examples.leg_A; Examples.leg_B; Examples.leg_C] /\
  get_waiting_times (build [Examples.leg_A; Examples.leg_B; Examples.leg_C])
    = Ok (map gap
            (consecutive [Examples.leg_A; Examples.leg_B; Examples.leg_C])) /\
  map gap (consecutive [Examples.leg_A; Examples.leg_B; Examples.leg_C])
    = [0; 60].
Proof.
  assert (Forall (fun leg => Connection.arrival_time leg <> 0)
                 [Examples.leg_A; Examples.leg_B; Examples.leg_C]) as H
    by (repeat constructor; simpl; lia).
  split; [exact H|].
  split; [exact (proj1 (get_waiting_times_all_gaps _ H))|reflexivity].
Defined.

Lemma py_sum_from (l : list Z) (a : Z) :
  fold_left Z.add l a = a + sumZ l.
Proof.
  revert a; induction l as [|x l IH]; intros a; simpl; [lia|].
  rewrite IH. lia.
Qed.

Lemma py_sum_sumZ (l : list Z) : py_sum l = sumZ l.
Proof. unfold py_sum. rewrite py_sum_from. lia. Qed.

Lemma sumZ_app (l1 l2 : list Z) : sumZ (l1 ++ l2) = sumZ l1 + sumZ l2.
Proof. induction l1 as [|x l1 IH]; simpl; [reflexivity|]. rewrite IH. lia. Qed.

Lemma sumZ_nonneg (l : list Z) : Forall (fun w => 0 <= w) l -> 0 <= sumZ l.
Proof.
  induction 1 as [|x l Hx _ IH]; simpl; lia.
Qed.

(** X12.  When no leg departs before the previous leg has arrived, every
    waiting time that [get_waiting_times] returns is at least 0, and so is
    the total that [get_total_waiting_time] returns. *)
Theorem get_waiting_times_chronological (self : t)
    (Hchron : chronological (legs self)) :
  exists (times : list Z) (total : Z),
    get_waiting_times self = Ok times /\
    Forall (fun w => 0 <= w) times /\
    get_total_waiting_time self = Ok total /\
    0 <= total.
Proof.
  assert (Forall (fun w => 0 <= w)
            (map gap (List.filter arrived_nonzero (consecutive (legs self)))))
    as Hall.
  { apply List.Forall_forall. intros w Hw.
    apply List.in_map_iff in Hw. destruct Hw as [p [<- Hp]].
    apply List.filter_In in Hp. destruct Hp as [Hp _].
    unfold chronological in Hchron. rewrite List.Forall_forall in Hchron.
    specialize (Hchron p Hp). unfold gap. lia. }
  unfold get_total_waiting_time. rewrite get_waiting_times_consecutive.
  do 2 eexists. split; [reflexivity|]. split; [exact Hall|].
  split; [reflexivity|]. rewrite py_sum_sumZ. by apply sumZ_nonneg.
Qed.

Lemma get_waiting_times_chronological_witness :
  chronological
    (legs (build [Examples.leg_A; Examples.leg_B; Examples.leg_C])) /\
  exists (times : list Z) (total : Z),
    get_waiting_times (build [Examples.leg_A; Examples.leg_B; Examples.leg_C])
      = Ok times /\
    Forall (fun w => 0 <= w) times /\
    get_total_waiting_time
      (build [Examples.leg_A; Examples.leg_B; Examples.leg_C]) = Ok total /\
    0 <= total.
Proof.
  assert (chronological
            (legs (build [Examples.leg_A; Examples.leg_B; Examples.leg_C])))
    as Hc by (repeat constructor; simpl; lia).
  split; [exact Hc|].
  exact (get_waiting_times_chronological _ Hc).
Defined.

(** ** Accounting for the travel time *)

Lemma invehicle_fold (ls : list Connection.t) (acc : list Z) :
  fold_left
    (fun invehicle_times leg =>
       if py_is_not_None (Connection.trip_id leg)
       then invehicle_times ++ [Connection.duration leg]
       else invehicle_times) ls acc =
  acc ++ map Connection.duration
           (List.filter (fun leg => py_is_not_None (Connection.trip_id leg))
                        ls).
Proof.
  revert acc; induction ls as [|leg ls IH]; intros acc; simpl.
  - by rewrite app_nil_r.
  - rewrite IH. destruct (py_is_not_None (Connection.trip_id leg));
      [|reflexivity].
    simpl. by rewrite <- app_assoc.
Qed.

Lemma walking_fold (ls : list Connection.t) (acc : list Z) :
  fold_left
    (fun walking_times leg =>
       if Connection.is_walk leg
       then walking_times
              ++ [Connection.duration leg - Connection.waiting_time leg]
       else walking_times) ls acc =
  acc ++ map (fun leg => Connection.duration leg - Connection.waiting_time leg)
           (List.filter Connection.is_walk ls).
Proof.
  revert acc; induction ls as [|leg ls IH]; intros acc; simpl.
  - by rewrite app_nil_r.
  - rewrite IH. destruct (Connection.is_walk leg); [|reflexivity].
    simpl. by rewrite <- app_assoc.
Qed.

Lemma sumZ_cons (x : Z) (l : list Z) : sumZ (x :: l) = x + sumZ l.
Proof. reflexivity. Qed.

(** Durations and gaps add up to the time from the first departure to the
    last arrival. *)
Lemma durations_gaps_telescope (first newest : Connection.t)
    (rest : list Connection.t) :
  last (first :: rest) = Some newest ->
  sumZ (map Connection.duration (first :: rest))
  + sumZ (map gap (consecutive (first :: rest)))
  = Connection.arrival_time newest - Connection.departure_time first.
Proof.
  revert first; induction rest as [|leg rest IH]; intros first Hl.
  - injection Hl as ->. unfold Connection.duration. simpl. lia.
  - rewrite consecutive_cons2.
    change (last (first :: leg :: rest)) with (last (leg :: rest)) in Hl.
    specialize (IH leg Hl).
    change (map Connection.duration (first :: leg :: rest))
      with (Connection.duration first
            :: map Connection.duration (leg :: rest)).
    change (map gap ((first, leg) :: consecutive (leg :: rest)))
      with (gap (first, leg) :: map gap (consecutive (leg :: rest))).
    rewrite !sumZ_cons.
    assert (Connection.duration first + gap (first, leg)
            = Connection.departure_time leg
              - Connection.departure_time first) as Hstep
      by (unfold Connection.duration, gap; simpl; lia).
    lia.
Qed.

Lemma durations_partition (ls : list Connection.t) :
  Forall walk_iff_no_trip ls ->
  sumZ (map Connection.duration ls) =
  sumZ (map Connection.duration
          (List.filter (fun leg => py_is_not_None (Connection.trip_id leg)) ls))
  + sumZ (map Connection.duration (List.filter Connection.is_walk ls)).
Proof.
  induction 1 as [|leg ls Hleg _ IH]; [reflexivity|].
  cbn [List.filter]. rewrite Hleg.
  destruct (py_is_not_None (Connection.trip_id leg));
    cbn [negb map]; rewrite ?sumZ_cons; lia.
Qed.

Lemma sumZ_walking (ls : list Connection.t) :
  sumZ (map (fun leg => Connection.duration leg - Connection.waiting_time leg)
            ls) =
  sumZ (map Connection.duration ls) - sumZ (map Connection.waiting_time ls).
Proof.
  induction ls as [|leg ls IH]; [reflexivity|].
  cbn [map]. rewrite !sumZ_cons. lia.
Qed.

(** X13.  For a journey in which no leg arrives at time 0 and a leg is a
    walk exactly when it has no trip identifier, the travel time is the sum
    of the total in-vehicle time, the total walking time, the total waiting
    time and the waiting times recorded on the walking legs. *)
Theorem travel_time_accounting
    (first : Connection.t) (rest : list Connection.t)
    (Hzero : Forall (fun leg => Connection.arrival_time leg <> 0)
                    (first :: rest))
    (Hwalk : Forall walk_iff_no_trip (first :: rest)) :
  exists travel invehicle walking waiting : Z,
    get_travel_time (build (first :: rest)) = Ok travel /\
    get_total_invehicle_time (build (first :: rest)) = Ok invehicle /\
    get_total_walking_time (build (first :: rest)) = Ok walking /\
    get_total_waiting_time (build (first :: rest)) = Ok waiting /\
    travel =
      invehicle + walking + waiting
      + sumZ (map Connection.waiting_time
                (List.filter Connection.is_walk (first :: rest))).
Proof.
  destruct (exists_last (l := first :: rest)) as [front [newest Heq]];
    [discriminate|].
  assert (last (first :: rest) = Some newest) as Hl
    by (rewrite Heq; apply last_snoc).
  destruct (get_waiting_times_nonzero _ Hzero) as (_ & _ & Hwait).
  pose proof (travel_time_first_last (first :: rest)) as Htravel.
  rewrite Hl in Htravel. cbn [head] in Htravel.
  unfold get_total_invehicle_time, get_invehicle_times.
  unfold get_total_walking_time, get_walking_times.
  rewrite Htravel, Hwait, legs_build, invehicle_fold, walking_fold.
  do 4 eexists. repeat (split; [reflexivity|]).
  rewrite !py_sum_sumZ. cbn [app]. rewrite sumZ_walking.
  rewrite <- (durations_gaps_telescope first newest rest Hl).
  rewrite (durations_partition _ Hwalk). lia.
Qed.

Lemma travel_time_accounting_witness :
  Forall (fun leg => Connection.arrival_time leg <> 0)
         [Examples.leg_A; Examples.leg_walk; Examples.leg_A'] /\
  Forall walk_iff_no_trip
         [Examples.leg_A; Examples.leg_walk; Examples.leg_A'] /\
  exists travel invehicle walking waiting : Z,
    get_travel_time
      (build [Examples.leg_A; Examples.leg_walk; Examples.leg_A'])
      = Ok travel /\
    get_total_invehicle_time
      (build [Examples.leg_A; Examples.leg_walk; Examples.leg_A'])
      = Ok invehicle /\
    get_total_walking_time
      (build [Examples.leg_A; Examples.leg_walk; Examples.leg_A'])
      = Ok walking /\
    get_total_waiting_time
      (build [Examples.leg_A; Examples.leg_walk; Examples.leg_A'])
      = Ok waiting /\
    travel =
      invehicle + walking + waiting
      + sumZ (map Connection.waiting_time
                (List.filter Connection.is_walk
                   [Examples.leg_A; Examples.leg_walk; Examples.leg_A'])).
Proof.
  assert (Forall (fun leg => Connection.arrival_time leg <> 0)
                 [Examples.leg_A; Examples.leg_walk; Examples.leg_A']) as Hz
    by (repeat constructor; simpl; lia).
  assert (Forall walk_iff_no_trip
                 [Examples.leg_A; Examples.leg_walk; Examples.leg_A']) as Hw
    by (repeat constructor).
  split; [exact Hz|]. split; [exact Hw|].
  exact (travel_time_accounting Examples.leg_A
           [Examples.leg_walk; Examples.leg_A'] Hz Hw).
Defined.

Lemma sumZ_filter_le (f : Connection.t -> bool) (ls : list Connection.t) :
  Forall (fun leg => 0 <= Connection.duration leg) ls ->
  0 <= sumZ (map Connection.duration (List.filter f ls))
    <= sumZ (map Connection.duration ls).
Proof.
  induction 1 as [|leg ls Hleg _ IH]; [simpl; lia|].
  cbn [List.filter]. destruct (f leg); cbn [map]; rewrite ?sumZ_cons; lia.
Qed.

(** X14.  When every leg arrives no earlier than it departs and no leg
    departs before the previous leg has arrived, the total in-vehicle time
    lies between 0 and the travel time. *)
Theorem total_invehicle_time_bounds
    (first : Connection.t) (rest : list Connection.t)
    (Hlegs : Forall (fun leg => Connection.departure_time leg
                                <= Connection.arrival_time leg)
                    (first :: rest))
    (Hchron : chronological (first :: rest)) :
  exists travel invehicle : Z,
    get_travel_time (build (first :: rest)) = Ok travel /\
    get_total_invehicle_time (build (first :: rest)) = Ok invehicle /\
    0 <= invehicle <= travel.
Proof.
  destruct (exists_last (l := first :: rest)) as [front [newest Heq]];
    [discriminate|].
  assert (last (first :: rest) = Some newest) as Hl
    by (rewrite Heq; apply last_snoc).
  pose proof (travel_time_first_last (first :: rest)) as Htravel.
  rewrite Hl in Htravel. cbn [head] in Htravel.
  unfold get_total_invehicle_time, get_invehicle_times.
  rewrite Htravel, legs_build, invehicle_fold.
  do 2 eexists. repeat (split; [reflexivity|]).
  rewrite py_sum_sumZ. cbn [app].
  rewrite <- (durations_gaps_telescope first newest rest Hl).
  assert (Forall (fun leg => 0 <= Connection.duration leg) (first :: rest))
    as Hdur.
  { eapply List.Forall_impl; [|exact Hlegs].
    intros leg Hleg. unfold Connection.duration. simpl in Hleg. lia. }
  pose proof (sumZ_filter_le
                (fun leg => py_is_not_None (Connection.trip_id leg))
                _ Hdur) as Hle.
  assert (0 <= sumZ (map gap (consecutive (first :: rest)))) as Hgap.
  { apply sumZ_nonneg. apply List.Forall_forall. intros w Hw.
    apply List.in_map_iff in Hw. destruct Hw as [p [<- Hp]].
    unfold chronological in Hchron. rewrite List.Forall_forall in Hchron.
    specialize (Hchron p Hp). unfold gap. lia. }
  lia.
Qed.

Lemma total_invehicle_time_bounds_witness :
  Forall (fun leg => Connection.departure_time leg
                     <= Connection.arrival_time leg)
         [Examples.leg_A; Examples.leg_B; Examples.leg_C] /\
  chronological [Examples.leg_A; Examples.leg_B; Examples.leg_C] /\
  exists travel invehicle : Z,
    get_travel_time (build [Examples.leg_A; Examples.leg_B; Examples.leg_C])
      = Ok travel /\
    get_total_invehicle_time
      (build [Examples.leg_A; Examples.leg_B; Examples.leg_C])
      = Ok invehicle /\
    0 <= invehicle <= travel.
Proof.
  assert (Forall (fun leg => Connection.departure_time leg
                             <= Connection.arrival_time leg)
                 [Examples.leg_A; Examples.leg_B; Examples.leg_C]) as Hl
    by (repeat constructor; simpl; lia).
  assert (chronological [Examples.leg_A; Examples.leg_B; Examples.leg_C])
    as Hc by (repeat constructor; simpl; lia).
  split; [exact Hl|]. split; [exact Hc|].
  exact (total_invehicle_time_bounds Examples.leg_A
           [Examples.leg_B; Examples.leg_C] Hl Hc).
Defined.

(** ** Dominance as an order *)

(** X15.  Dominance is transitive on journeys with at least one leg, for
    every setting of the two flags. *)
Theorem dominates_trans (la lb lc : list Connection.t)
    (consider_time consider_boardings : bool)
    (Hla : (1 <= length la)%nat) (Hlb : (1 <= length lb)%nat)
    (Hlc : (1 <= length lc)%nat)
    (Hab : dominates (build la) (build lb) consider_time consider_boardings
           = Ok true)
    (Hbc : dominates (build lb) (build lc) consider_time consider_boardings
           = Ok true) :
  dominates (build la) (build lc) consider_time consider_boardings = Ok true.
Proof.
  destruct (times_build la Hla) as [da [aa [Hda Haa]]].
  destruct (times_build lb Hlb) as [db [ab [Hdb Hab']]].
  destruct (times_build lc Hlc) as [dc [ac [Hdc Hac]]].
  rewrite (dominates_times_set _ _ da aa db ab) in Hab by assumption.
  rewrite (dominates_times_set _ _ db ab dc ac) in Hbc by assumption.
  rewrite (dominates_times_set _ _ da aa dc ac) by assumption.
  injection Hab as Hab. injection Hbc as Hbc. f_equal.
  apply andb_true_iff in Hab, Hbc. apply andb_true_iff.
  destruct consider_time, consider_boardings;
    rewrite ?andb_true_iff, ?Z.leb_le in *; intuition lia.
Qed.

Lemma dominates_trans_witness :
  let la := [Connection.mk 1 2 100 500 (PyStr "T1") false 0] in
  let lb := [Connection.mk 1 3 50 300 (PyStr "T2") false 0;
             Connection.mk 3 2 350 600 (PyStr "T3") false 0] in
  let lc := [Connection.mk 1 4 40 300 (PyStr "T4") false 0;
             Connection.mk 4 2 350 700 (PyStr "T5") false 0] in
  (1 <= length la)%nat /\ (1 <= length lb)%nat /\ (1 <= length lc)%nat /\
  dominates (build la) (build lb) true true = Ok true /\
  dominates (build lb) (build lc) true true = Ok true /\
  dominates (build la) (build lc) true true = Ok true.
Proof.
  intros la lb lc.
  assert ((1 <= length la)%nat) as Ha by (simpl; lia).
  assert ((1 <= length lb)%nat) as Hb by (simpl; lia).
  assert ((1 <= length lc)%nat) as Hc by (simpl; lia).
  assert (dominates (build la) (build lb) true true = Ok true) as Hab
    by (vm_compute; reflexivity).
  assert (dominates (build lb) (build lc) true true = Ok true) as Hbc
    by (vm_compute; reflexivity).
  repeat (split; [assumption|]).
  exact (dominates_trans la lb lc true true Ha Hb Hc Hab Hbc).
Defined.

(** X16.  With both criteria enabled, two journeys with at least one leg
    dominate each other exactly when they have the same departure time, the
    same arrival time and the same number of boardings, whatever their legs
    are. *)
Theorem dominates_mutual (la lb : list Connection.t)
    (Hla : (1 <= length la)%nat) (Hlb : (1 <= length lb)%nat) :
  dominates (build la) (build lb) true true = Ok true /\
  dominates (build lb) (build la) true true = Ok true
  <->
  departure_time (build la) = departure_time (build lb) /\
  arrival_time (build la) = arrival_time (build lb) /\
  n_boardings (build la) = n_boardings (build lb).
Proof.
  destruct (times_build la Hla) as [da [aa [Hda Haa]]].
  destruct (times_build lb Hlb) as [db [ab [Hdb Hab]]].
  rewrite (dominates_times_set _ _ da aa db ab) by assumption.
  rewrite (dominates_times_set _ _ db ab da aa) by assumption.
  rewrite Hda, Haa, Hdb, Hab.
  split.
  - intros [H1 H2]. injection H1 as H1. injection H2 as H2.
    rewrite !andb_true_iff, !Z.leb_le in H1, H2.
    split; [|split]; [assert (da = db) as -> by lia; reflexivity
                     |assert (aa = ab) as -> by lia; reflexivity
                     |lia].
  - intros (Hd & Ha & Hn). injection Hd as ->. injection Ha as ->.
    rewrite Hn, !Z.leb_refl. by split.
Qed.

Lemma dominates_mutual_witness :
  let la := [Connection.mk 1 2 100 500 (PyStr "T1") false 0] in
  let lb := [Connection.mk 7 8 100 500 (PyStr "T9") false 0] in
  (1 <= length la)%nat /\ (1 <= length lb)%nat /\ la <> lb /\
  dominates (build la) (build lb) true true = Ok true /\
  dominates (build lb) (build la) true true = Ok true.
Proof.
  intros la lb.
  assert ((1 <= length la)%nat) as Ha by (simpl; lia).
  assert ((1 <= length lb)%nat) as Hb by (simpl; lia).
  split; [exact Ha|]. split; [exact Hb|]. split; [discriminate|].
  apply (proj2 (dominates_mutual la lb Ha Hb)).
  repeat split; vm_compute; reflexivity.
Defined.

(** X17.  With [consider_time] enabled, [dominates] raises [TypeError] as
    soon as one of the two journeys has no departure time, as a journey
    without legs; with [consider_time] disabled it never fails and compares
    the boardings only. *)
Theorem dominates_without_times (self other : t) (consider_boardings : bool)
    (Hnone : departure_time self = None \/ departure_time other = None) :
  dominates self other true consider_boardings = Raise TypeError /\
  dominates self other false consider_boardings =
    Ok (negb consider_boardings
        || (n_boardings self <=? n_boardings other)).
Proof.
  split.
  - unfold dominates, dominates_time, py_ge.
    destruct Hnone as [-> | ->]; [reflexivity|].
    by destruct (departure_time self).
  - unfold dominates, dominates_boardings.
    by destruct consider_boardings, (n_boardings self <=? n_boardings other).
Qed.

Lemma dominates_without_times_witness :
  (departure_time (build []) = None
   \/ departure_time (build [Examples.leg_A]) = None) /\
  dominates (build []) (build [Examples.leg_A]) true true = Raise TypeError.
Proof.
  split; [left; reflexivity|].
  exact (proj1 (dominates_without_times (build []) (build [Examples.leg_A])
                  true (or_introl eq_refl))).
Defined.

(** * The journey animator *)

Section AnimatorTiming.

Context {coord : Type}.

Implicit Types c : JourneyAnimator.PlotConnection coord.

(** X18.  For a connection of positive duration, the offsets of
    [overlap_start] and [overlap_end] from the departure time lie between 0
    and the duration, for every time and every tail length: the numerators
    of [frac_start] and [frac_end] stay within the range that the two
    assertions of [__plot_paths] require. *)
Theorem overlap_within_connection (tail_seconds time_ut : Z) c
    (Hdur : JourneyAnimator.c_duration c > 0) :
  0 <= JourneyAnimator.overlap_start tail_seconds time_ut c
       - JourneyAnimator.departure_time c
    <= JourneyAnimator.c_duration c /\
  0 <= JourneyAnimator.overlap_end time_ut c
       - JourneyAnimator.departure_time c
    <= JourneyAnimator.c_duration c.
Proof.
  unfold JourneyAnimator.overlap_start, JourneyAnimator.overlap_end,
    JourneyAnimator.c_duration, JourneyAnimator.tail_time in *.
  lia.
Qed.

(** X19.  For a connection that is plotted (not omitted) and arrives no
    earlier than it departs, with a tail of at least 0 seconds, the plotted
    stretch is the intersection of the connection's time interval with the
    window from [time_ut - tail_seconds] to [time_ut]: it starts at the
    later of the departure time and the tail time, ends at the earlier of
    the arrival time and [time_ut], and is not reversed. *)
Theorem overlap_is_intersection (tail_seconds time_ut : Z) c
    (Htail : 0 <= tail_seconds)
    (Hleg : JourneyAnimator.departure_time c <= JourneyAnimator.arrival_time c)
    (Hactive : JourneyAnimator.omitted tail_seconds time_ut c = false) :
  JourneyAnimator.overlap_start tail_seconds time_ut c =
    Z.max (JourneyAnimator.departure_time c) (time_ut - tail_seconds) /\
  JourneyAnimator.overlap_end time_ut c =
    Z.min (JourneyAnimator.arrival_time c) time_ut /\
  JourneyAnimator.overlap_start tail_seconds time_ut c
    <= JourneyAnimator.overlap_end time_ut c.
Proof.
  unfold JourneyAnimator.omitted in Hactive.
  apply orb_false_iff in Hactive. destruct Hactive as [H1 H2].
  apply Z.ltb_ge in H1, H2.
  unfold JourneyAnimator.overlap_start, JourneyAnimator.overlap_end,
    JourneyAnimator.tail_time in *.
  lia.
Qed.

Lemma fold_min_le (l : list Z) (x : Z) :
  fold_left Z.min l x <= x /\
  Forall (fun y => fold_left Z.min l x <= y) l.
Proof.
  revert x; induction l as [|y l IH]; intros x; simpl.
  - split; [lia|constructor].
  - destruct (IH (Z.min x y)) as [Hx Hall].
    split; [lia|]. constructor; [lia|exact Hall].
Qed.

Lemma fold_max_ge (l : list Z) (x : Z) :
  x <= fold_left Z.max l x /\
  Forall (fun y => y <= fold_left Z.max l x) l.
Proof.
  revert x; induction l as [|y l IH]; intros x; simpl.
  - split; [lia|constructor].
  - destruct (IH (Z.max x y)) as [Hx Hall].
    split; [lia|]. constructor; [lia|exact Hall].
Qed.

Lemma py_min_le (l : list Z) (y : Z) :
  In y l -> exists m, JourneyAnimator.py_min l = Some m /\ m <= y.
Proof.
  destruct l as [|x l]; [contradiction|].
  intros Hin. eexists. split; [reflexivity|].
  destruct (fold_min_le l x) as [Hx Hall].
  destruct Hin as [<-|Hin]; [exact Hx|].
  rewrite List.Forall_forall in Hall. by apply Hall.
Qed.

Lemma py_max_ge (l : list Z) (y : Z) :
  In y l -> exists m, JourneyAnimator.py_max l = Some m /\ y <= m.
Proof.
  destruct l as [|x l]; [contradiction|].
  intros Hin. eexists. split; [reflexivity|].
  destruct (fold_max_ge l x) as [Hx Hall].
  destruct Hin as [<-|Hin]; [exact Hx|].
  rewrite List.Forall_forall in Hall. by apply Hall.
Qed.


End AnimatorTiming.

(** ** Instances of the animator properties *)

Lemma overlap_within_connection_witness :
  JourneyAnimator.c_duration AnimatorExamples.conn1 > 0 /\
  0 <= JourneyAnimator.overlap_start 120 300 AnimatorExamples.conn1
       - JourneyAnimator.departure_time AnimatorExamples.conn1
    <= JourneyAnimator.c_duration AnimatorExamples.conn1.
Proof.
  assert (JourneyAnimator.c_duration AnimatorExamples.conn1 > 0) as H
    by reflexivity.
  split; [exact H|].
  exact (proj1 (overlap_within_connection 120 300 AnimatorExamples.conn1 H)).
Defined.

Lemma overlap_is_intersection_witness :
  0 <= 120 /\
  JourneyAnimator.departure_time AnimatorExamples.conn1
    <= JourneyAnimator.arrival_time AnimatorExamples.conn1 /\
  JourneyAnimator.omitted 120 300 AnimatorExamples.conn1 = false /\
  JourneyAnimator.overlap_start 120 300 AnimatorExamples.conn1 = 180 /\
  JourneyAnimator.overlap_end 300 AnimatorExamples.conn1 = 300.
Proof.
  assert (0 <= 120) as Ht by lia.
  assert (JourneyAnimator.departure_time AnimatorExamples.conn1
          <= JourneyAnimator.arrival_time AnimatorExamples.conn1) as Hl
    by (simpl; lia).
  split; [exact Ht|]. split; [exact Hl|]. split; [reflexivity|].
  pose proof (overlap_is_intersection 120 300 AnimatorExamples.conn1
                Ht Hl eq_refl) as H.
  split; [exact (proj1 H)|exact (proj1 (proj2 H))].
Defined.

